(** * Lightflow: the task descriptor and its execution wrapper

    A shallow embedding of [lightflow/models/task.py]: the [TaskState]
    constants, the [BaseTask] descriptor with its celery-derived status
    queries and [clear_celery_result], and the wrapper [_run] around the
    user-supplied [run] method.

    Python objects that are shared and mutated in place (the
    [MultiTaskData] payload) live in a heap addressed by references, so
    that aliasing between the incoming payload and the payload of the
    returned [Action] is visible.  Python exceptions are an explicit
    result, threaded through a small state-and-exception monad. *)

From Stdlib Require Import ZArith.
From stdpp Require Import gmap strings list.

Open Scope string_scope.
Open Scope list_scope.

(** ** Exceptions and the monad of Python calls *)

(** Modelled from the spec: [lightflow/models/exceptions.py] is not part of
    the sources at hand.  [StopTask] carries the boolean "skip successors"
    flag the wrapper reads as [err.skip_successors]; [StopTask] and
    [AbortWorkflow] are unrelated classes, so neither [except] clause
    catches the other.  [AttributeError] is what Python raises when an
    attribute of [None] is read; [OtherException] stands for every
    exception the wrapper has no clause for. *)
Inductive Exn : Type :=
  | TaskReturnActionInvalid
  | StopTask (message : string) (skip_successors : bool)
  | AbortWorkflow (message : string)
  | AttributeError
  | OtherException (name : string).

Inductive Res (A : Type) : Type :=
  | Val (a : A)
  | Exc (e : Exn).
Arguments Val {A} a.
Arguments Exc {A} e.

(** A call either returns a value or raises, and leaves a new state. *)
Definition M (S A : Type) : Type := S -> Res A * S.

#[global] Instance M_ret {S} : MRet (M S) := fun A a s => (Val a, s).

#[global] Instance M_bind {S} : MBind (M S) := fun A B k m s =>
  match m s with
  | (Val a, s') => k a s'
  | (Exc e, s') => (Exc e, s')
  end.

Definition raise {S A} (e : Exn) : M S A := fun s => (Exc e, s).

(** [try: body  except ... as err: handler err]; a handler re-raises the
    exceptions its clauses do not name. *)
Definition try_except {S A} (body : M S A) (handler : Exn -> M S A) : M S A :=
  fun s =>
    match body s with
    | (Val a, s') => (Val a, s')
    | (Exc e, s') => handler e s'
    end.

(** [if f is not None: call f] *)
Definition if_not_None {S A} (f : option A) (call : A -> M S unit) : M S unit :=
  match f with
  | Some g => call g
  | None => mret tt
  end.

(** ** Payloads and actions *)

(** A reference to a [MultiTaskData] object. *)
Definition loc := positive.

(** Modelled from the spec: [lightflow/models/task_data.py] is not part of
    the sources at hand.  A payload "carries the working data plus an
    append-only history of task names that have touched it";
    [MultiTaskData(name)] is "a fresh empty payload scoped to this task's
    name". *)
Record MultiTaskData : Type := mkMultiTaskData {
  scope : string;
  datasets : gmap string Z;
  task_history : list string
}.

Definition MultiTaskData_init (task_name : string) : MultiTaskData :=
  {| scope := task_name; datasets := ∅; task_history := [] |}.

Definition appended (task_name : string) (d : MultiTaskData) : MultiTaskData :=
  {| scope := scope d; datasets := datasets d;
     task_history := task_history d ++ [task_name] |}.

(** Modelled from the spec: [lightflow/models/action.py] is not part of the
    sources at hand.  An action is "a data payload plus an optional
    restriction on which successors may run next"; it holds the payload by
    reference. *)
Record Action : Type := mkAction {
  Action_data : loc;
  Action_limit : option (list string)
}.

(** What a [run] method may hand back: [None], an [Action], or some other
    object. *)
Inductive PyObject : Type :=
  | PyNone
  | PyAction (a : Action)
  | PyInt (n : Z)
  | PyStr (s : string)
  | PyPayload (d : loc).

Definition is_None (o : PyObject) : bool :=
  match o with PyNone => true | _ => false end.

Definition isinstance_Action (o : PyObject) : bool :=
  match o with PyAction _ => true | _ => false end.

(** ** The world a wrapper invocation runs in *)

(** The store, the signal emitter and the context are external
    collaborators; the wrapper hands them to [run] and, of the three, only
    ever calls [signal.stop_workflow()]. *)
Variant DataStoreDocument : Type := store_handle (id : positive).
Variant TaskSignal : Type := signal_handle (id : positive).
Variant TaskContext : Type := context_handle (id : positive).

(** A callback is an external callable, known by its identity.  Callbacks
    are observers: a call is recorded, its body neither raises nor touches a
    payload. *)
Definition Callback := string.

(** The calls made on the callbacks and on the signal emitter, oldest
    first: [f()] is [call_callback f None], [f(exc=err)] is
    [call_callback f (Some err)]. *)
Inductive Call : Type :=
  | call_callback (f : Callback) (exc : option Exn)
  | call_stop_workflow (signal : TaskSignal).

Record World : Type := mkWorld {
  heap : gmap loc MultiTaskData;
  calls : list Call
}.

Definition log (c : Call) : M World unit :=
  fun w => (Val tt, {| heap := heap w; calls := calls w ++ [c] |}).

(** [MultiTaskData(task_name)]: a new object at a reference not in use. *)
Definition MultiTaskData_new (task_name : string) : M World loc :=
  fun w =>
    let d := fresh (dom (heap w)) in
    (Val d, {| heap := <[d := MultiTaskData_init task_name]> (heap w);
               calls := calls w |}).

(** [data.add_task_history(task_name)]: the object behind [d] is changed in
    place.  A reference the wrapper holds is always live in Python; on a
    reference that is not, nothing happens here. *)
Definition add_task_history (d : loc) (task_name : string) : M World unit :=
  fun w => (Val tt, {| heap := alter (appended task_name) d (heap w);
                       calls := calls w |}).

(** [signal.stop_workflow()] *)
Definition stop_workflow (signal : TaskSignal) : M World unit :=
  log (call_stop_workflow signal).

(** ** The job handle *)

(** The result backend of the job queue: what is stored under each job id. *)
Definition Backend : Type := gmap string string.

(** Modelled from the spec: the job handle is the queue client's
    [AsyncResult], an object outside this repository, used through
    [.state], [.ready()], [.failed()] and [.forget()].  It is an object by
    its methods, each reading or changing the result backend. *)
Record AsyncResult : Type := mkAsyncResult {
  state_of : Backend -> string;
  ready : Backend -> bool;
  failed : Backend -> bool;
  forget : Backend -> Backend
}.

(** Reading an attribute of [o], or calling a method on it: an
    [AttributeError] when [o] is [None]. *)
Definition getattr {A} (o : option AsyncResult) (attr : AsyncResult -> Backend -> A) : M Backend A :=
  match o with
  | Some r => fun b => (Val (attr r b), b)
  | None => raise AttributeError
  end.

Definition call_forget (o : option AsyncResult) : M Backend unit :=
  match o with
  | Some r => fun b => (Val tt, forget r b)
  | None => raise AttributeError
  end.

(** ** TaskState *)

Module TaskState.
Definition Init : Z := 1.
Definition Waiting : Z := 2.
Definition Running : Z := 3.
Definition Completed : Z := 4.
Definition Stopped : Z := 5.
Definition Aborted : Z := 6.
End TaskState.

(** ** BaseTask *)

(** The signature of [run(self, data, store, signal, context)]. *)
Definition RunMethod : Type :=
  loc -> DataStoreDocument -> TaskSignal -> TaskContext -> M World PyObject.

(** The attributes of a task object, and the [run] method its class
    provides. *)
Record BaseTask : Type := mkBaseTask {
  _name : string;
  _queue : string;
  _force_run : bool;
  _propagate_skip : bool;
  _skip : bool;
  _state : Z;
  _celery_result : option AsyncResult;
  workflow_name : option string;
  dag_name : option string;
  run : RunMethod
}.

(** [BaseTask.run]: the body is [pass], so the call returns [None]. *)
Definition BaseTask_run : RunMethod := fun _ _ _ _ => mret PyNone.

(** [BaseTask.__init__]; [queue] defaults to [JobType.Task], [force_run] to
    [False] and [propagate_skip] to [True] at the call site. *)
Definition __init__ (name queue : string) (force_run propagate_skip : bool) : BaseTask :=
  {| _name := name; _queue := queue; _force_run := force_run;
     _propagate_skip := propagate_skip;
     _skip := false; _state := TaskState.Init; _celery_result := None;
     workflow_name := None; dag_name := None;
     run := BaseTask_run |}.

(** A subclass that implements [run]. *)
Definition with_run (self : BaseTask) (r : RunMethod) : BaseTask :=
  {| _name := _name self; _queue := _queue self; _force_run := _force_run self;
     _propagate_skip := _propagate_skip self;
     _skip := _skip self; _state := _state self;
     _celery_result := _celery_result self;
     workflow_name := workflow_name self; dag_name := dag_name self;
     run := r |}.

Definition name (self : BaseTask) : string := _name self.
Definition queue (self : BaseTask) : string := _queue self.
Definition has_to_run (self : BaseTask) : bool := _force_run self.
Definition propagate_skip (self : BaseTask) : bool := _propagate_skip self.

Definition is_waiting (self : BaseTask) : bool := (_state self =? TaskState.Waiting)%Z.
Definition is_running (self : BaseTask) : bool := (_state self =? TaskState.Running)%Z.
Definition is_completed (self : BaseTask) : bool := (_state self =? TaskState.Completed)%Z.
Definition is_stopped (self : BaseTask) : bool := (_state self =? TaskState.Stopped)%Z.
Definition is_aborted (self : BaseTask) : bool := (_state self =? TaskState.Aborted)%Z.
Definition is_skipped (self : BaseTask) : bool := _skip self.

Definition set_is_skipped (self : BaseTask) (value : bool) : BaseTask :=
  {| _name := _name self; _queue := _queue self; _force_run := _force_run self;
     _propagate_skip := _propagate_skip self;
     _skip := value; _state := _state self;
     _celery_result := _celery_result self;
     workflow_name := workflow_name self; dag_name := dag_name self;
     run := run self |}.

Definition state (self : BaseTask) : Z := _state self.

Definition set_state (self : BaseTask) (st : Z) : BaseTask :=
  {| _name := _name self; _queue := _queue self; _force_run := _force_run self;
     _propagate_skip := _propagate_skip self;
     _skip := _skip self; _state := st;
     _celery_result := _celery_result self;
     workflow_name := workflow_name self; dag_name := dag_name self;
     run := run self |}.

Definition celery_result (self : BaseTask) : option AsyncResult := _celery_result self.

Definition set_celery_result (self : BaseTask) (result : option AsyncResult) : BaseTask :=
  {| _name := _name self; _queue := _queue self; _force_run := _force_run self;
     _propagate_skip := _propagate_skip self;
     _skip := _skip self; _state := _state self;
     _celery_result := result;
     workflow_name := workflow_name self; dag_name := dag_name self;
     run := run self |}.

Definition has_celery_result (self : BaseTask) : bool :=
  match celery_result self with
  | Some _ => true
  | None => false
  end.

Definition celery_pending (self : BaseTask) : M Backend bool :=
  if has_celery_result self then
    s ← getattr (celery_result self) state_of;
    mret (String.eqb s "PENDING")
  else mret false.

Definition celery_completed (self : BaseTask) : M Backend bool :=
  if has_celery_result self then getattr (celery_result self) ready
  else mret false.

Definition celery_failed (self : BaseTask) : M Backend bool :=
  if has_celery_result self then getattr (celery_result self) failed
  else mret false.

Definition celery_state (self : BaseTask) : M Backend string :=
  if has_celery_result self then getattr (celery_result self) state_of
  else mret "NOT_QUEUED".

Definition clear_celery_result (self : BaseTask) : M Backend unit :=
  if has_celery_result self then call_forget (_celery_result self)
  else mret tt.

(** [_run]: the payload is defaulted, [run] is called inside the [try], its
    outcome is turned into a candidate [result], and the candidate is
    normalised.  The success callback is called inside the [try], after
    [run] has returned; the two [except] clauses are the two named cases of
    the handler.  In the last step [isinstance(result, Action)] is the match
    on [PyAction], which also gives [result.data]. *)
Definition _run (self : BaseTask) (data : option loc)
    (store : DataStoreDocument) (signal : TaskSignal) (context : TaskContext)
    (success_callback stop_callback abort_callback : option Callback)
    : M World Action :=
  data ← match data with
         | None => MultiTaskData_new (_name self)
         | Some d => mret d
         end;
  result ← try_except
    (result ← run self data store signal context;
     if_not_None success_callback (fun f => log (call_callback f None));;
     mret result)
    (fun err =>
       match err with
       | StopTask _ skip_successors =>
           if_not_None stop_callback (fun f => log (call_callback f (Some err)));;
           mret (if skip_successors then PyAction (mkAction data (Some [])) else PyNone)
       | AbortWorkflow _ =>
           if_not_None abort_callback (fun f => log (call_callback f (Some err)));;
           stop_workflow signal;;
           mret PyNone
       | _ => raise err
       end);
  if is_None result then mret (mkAction data None)
  else
    match result with
    | PyAction a =>
        add_task_history (Action_data a) (name self);;
        mret a
    | _ => raise TaskReturnActionInvalid
    end.

(** ** What the wrapper does, read off the outcome of [run] *)

(** The reference [run] is called with: the incoming payload, or the new
    object when there is none. *)
Definition payload (data : option loc) (w : World) : loc :=
  match data with
  | Some d => d
  | None => fresh (dom (heap w))
  end.

(** The world [run] is called in. *)
Definition on_entry (self : BaseTask) (data : option loc) (w : World) : World :=
  match data with
  | Some _ => w
  | None => {| heap := <[fresh (dom (heap w)) := MultiTaskData_init (_name self)]> (heap w);
               calls := calls w |}
  end.

(** The candidate [result] once the [try] statement is left, or the
    exception that leaves [_run]. *)
Definition candidate (d : loc) (outcome : Res PyObject) : Res PyObject :=
  match outcome with
  | Val v => Val v
  | Exc (StopTask _ true) => Val (PyAction (mkAction d (Some [])))
  | Exc (StopTask _ false) => Val PyNone
  | Exc (AbortWorkflow _) => Val PyNone
  | Exc e => Exc e
  end.

Definition callback_calls (f : option Callback) (exc : option Exn) : list Call :=
  match f with
  | Some g => [call_callback g exc]
  | None => []
  end.

(** The calls the wrapper makes on its collaborators, by outcome of [run]. *)
Definition wrapper_calls (signal : TaskSignal)
    (success_callback stop_callback abort_callback : option Callback)
    (outcome : Res PyObject) : list Call :=
  match outcome with
  | Val _ => callback_calls success_callback None
  | Exc (StopTask m s) => callback_calls stop_callback (Some (StopTask m s))
  | Exc (AbortWorkflow m) =>
      callback_calls abort_callback (Some (AbortWorkflow m)) ++ [call_stop_workflow signal]
  | Exc _ => []
  end.

(** The rest of [_run] after [run] has come back with [outcome]. *)
Definition after_run (self : BaseTask) (d : loc) (signal : TaskSignal)
    (success_callback stop_callback abort_callback : option Callback)
    (outcome : Res PyObject * World) : Res Action * World :=
  let w1 := outcome.2 in
  let cs :=
    calls w1 ++ wrapper_calls signal success_callback stop_callback abort_callback outcome.1 in
  match candidate d outcome.1 with
  | Val PyNone => (Val (mkAction d None), {| heap := heap w1; calls := cs |})
  | Val (PyAction a) =>
      (Val a, {| heap := alter (appended (name self)) (Action_data a) (heap w1); calls := cs |})
  | Val _ => (Exc TaskReturnActionInvalid, {| heap := heap w1; calls := cs |})
  | Exc e => (Exc e, {| heap := heap w1; calls := cs |})
  end.

(** How often [signal.stop_workflow()] occurs in a list of calls. *)
Definition is_stop_workflow (c : Call) : bool :=
  match c with
  | call_stop_workflow _ => true
  | call_callback _ _ => false
  end.

Definition stop_workflow_count (cs : list Call) : nat :=
  length (List.filter is_stop_workflow cs).

(** The calls made after the first [n] ones. *)
Definition calls_after (n : nat) (w : World) : list Call := drop n (calls w).

(** The history of the payload behind [d], when [d] is live. *)
Definition history (w : World) (d : loc) : option (list string) :=
  task_history <$> heap w !! d.

(** ** Sample tasks, handles and worlds *)

(** [run] methods that return a fixed object, or raise a fixed exception. *)
Definition run_returning (v : PyObject) : RunMethod := fun _ _ _ _ => mret v.
Definition run_raising (e : Exn) : RunMethod := fun _ _ _ _ => raise e.

(** A [run] that computes into the payload it is given, then stops the
    task. *)
Definition run_compute_then_stop (skip_successors : bool) : RunMethod :=
  fun data _ _ _ w =>
    (Exc (StopTask "enough" skip_successors),
     {| heap := alter (fun d => {| scope := scope d;
                                   datasets := <["answer" := 42%Z]> (datasets d);
                                   task_history := task_history d |}) data (heap w);
        calls := calls w |}).

(** A [run] that asks the signal emitter itself to stop the workflow, and
    then aborts. *)
Definition run_stop_then_abort : RunMethod :=
  fun _ _ signal _ => stop_workflow signal;; raise (AbortWorkflow "fatal").

(** A [run] that returns an [Action] around the payload it was given. *)
Definition run_pass_on (limit : option (list string)) : RunMethod :=
  fun data _ _ _ => mret (PyAction (mkAction data limit)).

(** The task named [t1] of some subclass whose [run] is [r]. *)
Definition task_t1 (r : RunMethod) : BaseTask :=
  with_run (__init__ "t1" "task" false true) r.

Definition store0 : DataStoreDocument := store_handle 1.
Definition signal0 : TaskSignal := signal_handle 1.
Definition context0 : TaskContext := context_handle 1.

(** One payload, at reference 1, that task [t0] has already touched. *)
Definition world0 : World :=
  {| heap := {[ 1%positive := {| scope := "t0"; datasets := ∅; task_history := ["t0"] |} ]};
     calls := [] |}.

Definition no_payload : World := {| heap := ∅; calls := [] |}.

(** A handle in the manner of celery: the state is what the backend holds
    under the job id, [PENDING] when it holds nothing. *)
Definition handle_of (job : string) : AsyncResult :=
  {| state_of := fun b => default "PENDING" (b !! job);
     ready := fun b => bool_decide (default "PENDING" (b !! job) ∈ ["SUCCESS"; "FAILURE"; "REVOKED"]);
     failed := fun b => String.eqb (default "PENDING" (b !! job)) "FAILURE";
     forget := fun b => delete job b |}.

Definition backend0 : Backend := {[ "job-1" := "FAILURE" ]}.

(** How many of a list of calls are calls of a callback. *)
Definition is_callback_call (c : Call) : bool :=
  match c with
  | call_callback _ _ => true
  | call_stop_workflow _ => false
  end.

Definition callback_count (cs : list Call) : nat :=
  length (List.filter is_callback_call cs).

(** A second task, named [t2], of some subclass whose [run] is [r]. *)
Definition task_t2 (r : RunMethod) : BaseTask :=
  with_run (__init__ "t2" "task" true false) r.

(** ** Proof steps *)

Ltac run_outcome :=
  match goal with
  | |- context [run ?s ?d ?st ?sg ?c ?w0] =>
      let v := fresh "v" in
      let e := fresh "e" in
      let h := fresh "h" in
      let cs := fresh "cs" in
      destruct (run s d st sg c w0) as [[v|e] [h cs]]
  end.

Ltac by_cases_on_callbacks :=
  repeat match goal with
         | f : option Callback |- _ => destruct f
         end;
  simpl; rewrite ?app_nil_r, <- ?app_assoc; reflexivity.

(** ** The wrapper, outcome by outcome *)

Lemma _run_after_run self data store signal context sc stc ac w :
  _run self data store signal context sc stc ac w =
  after_run self (payload data w) signal sc stc ac
    (run self (payload data w) store signal context (on_entry self data w)).
Proof.
  unfold _run, after_run, mbind, M_bind, mret, M_ret, try_except, if_not_None,
    stop_workflow, log, add_task_history, raise.
  destruct data as [d|]; simpl; run_outcome; simpl.
  - destruct v; by_cases_on_callbacks.
  - destruct e as [|m [|]|m| |n]; by_cases_on_callbacks.
  - destruct v; by_cases_on_callbacks.
  - destruct e as [|m [|]|m| |n]; by_cases_on_callbacks.
Qed.

Lemma calls_after_app (h : gmap loc MultiTaskData) (cs more : list Call) :
  calls_after (length cs) {| heap := h; calls := cs ++ more |} = more.
Proof. unfold calls_after; simpl. by rewrite drop_app_length. Qed.

Lemma history_alter (w : World) (cs : list Call) (task_name : string) (d : loc) :
  history {| heap := alter (appended task_name) d (heap w); calls := cs |} d =
  (fun l => l ++ [task_name]) <$> history w d.
Proof.
  unfold history; simpl. rewrite lookup_alter.
  case_decide; [|congruence]. by destruct (heap w !! d).
Qed.

Lemma history_alter_ne (w : World) (cs : list Call) (task_name : string) (d d' : loc) :
  d ≠ d' ->
  history {| heap := alter (appended task_name) d (heap w); calls := cs |} d' = history w d'.
Proof. intros Hne. unfold history; simpl. by rewrite lookup_alter_ne. Qed.

(** ** The history of the returned payload *)

(** C1, evaluated where the code departs from it: task [t1] runs the
    inherited [run], which returns nothing, on a payload whose history is
    [t0].  The wrapper returns the default action around that payload and
    leaves the world as it was: the history is still [t0], the name [t1] is
    not in it. *)
Example default_action_history_lacks_task_name :
  _run (task_t1 BaseTask_run) (Some 1%positive) store0 signal0 context0 None None None world0
    = (Val {| Action_data := 1%positive; Action_limit := None |}, world0)
  /\ history world0 1%positive = Some ["t0"]
  /\ name (task_t1 BaseTask_run) = "t1".
Proof. repeat split; reflexivity. Qed.

(** ** Callbacks and the invalid return value *)

(** C2 fails as stated: [run] returns the integer 42, which is no [Action],
    and the wrapper, given all three callbacks, has called the success
    callback by the time it raises. *)
Lemma invalid_return_fires_success_callback :
  run (task_t1 (run_returning (PyInt 42))) 1%positive store0 signal0 context0 world0
    = (Val (PyInt 42), world0)
  /\ isinstance_Action (PyInt 42) = false
  /\ _run (task_t1 (run_returning (PyInt 42))) (Some 1%positive) store0 signal0 context0
        (Some "on_success") (Some "on_stop") (Some "on_abort") world0
      = (Exc TaskReturnActionInvalid,
         {| heap := heap world0; calls := [call_callback "on_success" None] |}).
Proof. repeat split; reflexivity. Qed.

(** C2, amended: when [run] returns a value that is not an [Action], the
    calls the wrapper makes are exactly the call of the success callback,
    if one was supplied, and nothing else: the stop and the abort callback
    (the calls that carry [exc]) are not fired, the success callback is
    fired once. *)
Theorem non_action_return_fires_only_success_callback
    self data store signal context sc stc ac w v w1 :
  run self (payload data w) store signal context (on_entry self data w) = (Val v, w1) ->
  isinstance_Action v = false ->
  let r := _run self data store signal context sc stc ac w in
  calls_after (length (calls w1)) r.2 = callback_calls sc None
  /\ (forall f e, call_callback f (Some e) ∉ calls_after (length (calls w1)) r.2)
  /\ (forall f, sc = Some f -> calls_after (length (calls w1)) r.2 = [call_callback f None]).
Proof.
  intros Hrun Hv. cbv zeta. rewrite _run_after_run, Hrun. unfold after_run; simpl.
  assert (Hcalls : forall h, calls_after (length (calls w1))
            {| heap := h; calls := calls w1 ++ callback_calls sc None |}
            = callback_calls sc None) by (intros h; apply calls_after_app).
  assert (Hexc : forall f e, call_callback f (Some e) ∉ callback_calls sc None).
  { intros f e Hin. destruct sc; simpl in Hin.
    - apply list_elem_of_singleton in Hin. discriminate Hin.
    - by apply elem_of_nil in Hin. }
  destruct v as [|a|n|s|d]; try discriminate Hv; simpl; rewrite Hcalls;
    (repeat split; [exact Hexc | intros f Hf; rewrite Hf; reflexivity]).
Qed.

Lemma non_action_return_fires_only_success_callback_witness :
  let r := _run (task_t1 (run_returning (PyInt 42))) (Some 1%positive) store0 signal0 context0
             (Some "on_success") (Some "on_stop") (Some "on_abort") world0 in
  calls_after (length (calls world0)) r.2 = callback_calls (Some "on_success") None
  /\ (forall f e, call_callback f (Some e) ∉ calls_after (length (calls world0)) r.2)
  /\ (forall f, Some "on_success" = Some f ->
       calls_after (length (calls world0)) r.2 = [call_callback f None]).
Proof.
  apply (non_action_return_fires_only_success_callback
           (task_t1 (run_returning (PyInt 42))) (Some 1%positive) store0 signal0 context0
           (Some "on_success") (Some "on_stop") (Some "on_abort") world0 (PyInt 42) world0);
    reflexivity.
Defined.

(** C3: when [run] returns, without raising, an object that is neither
    [None] nor an [Action], the wrapper raises [TaskReturnActionInvalid], so
    no [Action] comes back, and the heap is the one [run] left: no payload,
    and so no history, is changed by the wrapper. *)
Theorem invalid_return_raises_and_keeps_history
    self data store signal context sc stc ac w v w1 :
  run self (payload data w) store signal context (on_entry self data w) = (Val v, w1) ->
  is_None v = false ->
  isinstance_Action v = false ->
  let r := _run self data store signal context sc stc ac w in
  r.1 = Exc TaskReturnActionInvalid
  /\ heap r.2 = heap w1
  /\ (forall d, history r.2 d = history w1 d).
Proof.
  intros Hrun Hnone Hact. cbv zeta. rewrite _run_after_run, Hrun.
  unfold after_run, history; simpl.
  destruct v; try discriminate Hnone; try discriminate Hact; simpl; auto.
Qed.

Lemma invalid_return_raises_and_keeps_history_witness :
  let r := _run (task_t1 (run_returning (PyInt 42))) (Some 1%positive) store0 signal0 context0
             (Some "on_success") None None world0 in
  r.1 = Exc TaskReturnActionInvalid
  /\ heap r.2 = heap world0
  /\ (forall d, history r.2 d = history world0 d).
Proof.
  apply (invalid_return_raises_and_keeps_history
           (task_t1 (run_returning (PyInt 42))) (Some 1%positive) store0 signal0 context0
           (Some "on_success") None None world0 (PyInt 42) world0);
    reflexivity.
Defined.

(** ** Stop and abort *)

(** C4: when [run] raises [StopTask] with [skip_successors] set, the
    wrapper returns an [Action] whose payload is the very reference [run]
    was called with (the incoming payload when there was one) and whose
    limit is the empty list, whatever world [run] left behind. *)
Theorem stop_skipping_successors_wraps_incoming_payload
    self data store signal context sc stc ac w m w1 :
  run self (payload data w) store signal context (on_entry self data w)
    = (Exc (StopTask m true), w1) ->
  (_run self data store signal context sc stc ac w).1
    = Val {| Action_data := payload data w; Action_limit := Some [] |}
  /\ (forall d, data = Some d -> payload data w = d).
Proof.
  intros Hrun. rewrite _run_after_run, Hrun. unfold after_run; simpl.
  split; [reflexivity|]. by intros d ->.
Qed.

Lemma stop_skipping_successors_wraps_incoming_payload_witness :
  (_run (task_t1 (run_compute_then_stop true)) (Some 1%positive) store0 signal0 context0
     None (Some "on_stop") None world0).1
    = Val {| Action_data := 1%positive; Action_limit := Some [] |}
  /\ (forall d, Some 1%positive = Some d -> payload (Some 1%positive) world0 = d).
Proof.
  apply (stop_skipping_successors_wraps_incoming_payload
           (task_t1 (run_compute_then_stop true)) (Some 1%positive) store0 signal0 context0
           None (Some "on_stop") None world0 "enough"
           (run_compute_then_stop true 1%positive store0 signal0 context0 world0).2).
  reflexivity.
Defined.

(** C5 fails as stated: a [run] that calls [signal.stop_workflow()] itself
    and then raises [AbortWorkflow].  Starting with no call on record, the
    invocation ends with two calls of [stop_workflow()], the one [run] made
    and the one the wrapper adds. *)
Lemma abort_after_own_stop_counts_two :
  calls world0 = []
  /\ run (task_t1 run_stop_then_abort) 1%positive store0 signal0 context0 world0
     = (Exc (AbortWorkflow "fatal"),
        {| heap := heap world0; calls := [call_stop_workflow signal0] |})
  /\ calls (_run (task_t1 run_stop_then_abort) (Some 1%positive) store0 signal0 context0
              None None None world0).2
     = [call_stop_workflow signal0; call_stop_workflow signal0]
  /\ stop_workflow_count
       (calls (_run (task_t1 run_stop_then_abort) (Some 1%positive) store0 signal0 context0
                 None None None world0).2) = 2.
Proof. repeat split; reflexivity. Qed.

(** C5, amended: when [run] raises [AbortWorkflow], the wrapper returns,
    rather than raises, the default [Action] around the payload [run] was
    called with, with no limit; after [run] it calls the abort callback, if
    supplied, and then [signal.stop_workflow()].  The wrapper itself makes
    that call exactly once: the calls of [stop_workflow()] on record are
    those [run] left and one more, so exactly one when [run] left none. *)
Theorem abort_stops_workflow_once
    self data store signal context sc stc ac w m w1 :
  run self (payload data w) store signal context (on_entry self data w)
    = (Exc (AbortWorkflow m), w1) ->
  let r := _run self data store signal context sc stc ac w in
  r.1 = Val {| Action_data := payload data w; Action_limit := None |}
  /\ calls_after (length (calls w1)) r.2
     = callback_calls ac (Some (AbortWorkflow m)) ++ [call_stop_workflow signal]
  /\ stop_workflow_count (calls_after (length (calls w1)) r.2) = 1
  /\ calls r.2
     = calls w1 ++ callback_calls ac (Some (AbortWorkflow m)) ++ [call_stop_workflow signal]
  /\ stop_workflow_count (calls r.2) = stop_workflow_count (calls w1) + 1
  /\ (stop_workflow_count (calls w1) = 0 -> stop_workflow_count (calls r.2) = 1).
Proof.
  intros Hrun. cbv zeta. rewrite _run_after_run, Hrun. unfold after_run; simpl.
  rewrite calls_after_app.
  assert (Hmade : stop_workflow_count
            (callback_calls ac (Some (AbortWorkflow m)) ++ [call_stop_workflow signal]) = 1)
    by (destruct ac; reflexivity).
  assert (Hall : stop_workflow_count
            (calls w1 ++ callback_calls ac (Some (AbortWorkflow m))
               ++ [call_stop_workflow signal])
          = stop_workflow_count (calls w1) + 1).
  { unfold stop_workflow_count in *. by rewrite List.filter_app, length_app, Hmade. }
  split; [reflexivity|]. split; [reflexivity|]. split; [exact Hmade|].
  split; [reflexivity|]. split; [exact Hall|].
  intros Hnone. by rewrite Hall, Hnone.
Qed.

Lemma abort_stops_workflow_once_witness :
  let r := _run (task_t1 (run_raising (AbortWorkflow "fatal"))) (Some 1%positive)
             store0 signal0 context0 (Some "on_success") (Some "on_stop") (Some "on_abort")
             world0 in
  r.1 = Val {| Action_data := 1%positive; Action_limit := None |}
  /\ calls_after (length (calls world0)) r.2
     = callback_calls (Some "on_abort") (Some (AbortWorkflow "fatal"))
       ++ [call_stop_workflow signal0]
  /\ stop_workflow_count (calls_after (length (calls world0)) r.2) = 1
  /\ calls r.2
     = calls world0 ++ callback_calls (Some "on_abort") (Some (AbortWorkflow "fatal"))
       ++ [call_stop_workflow signal0]
  /\ stop_workflow_count (calls r.2) = stop_workflow_count (calls world0) + 1
  /\ (stop_workflow_count (calls world0) = 0 -> stop_workflow_count (calls r.2) = 1).
Proof.
  apply (abort_stops_workflow_once
           (task_t1 (run_raising (AbortWorkflow "fatal"))) (Some 1%positive)
           store0 signal0 context0 (Some "on_success") (Some "on_stop") (Some "on_abort")
           world0 "fatal" world0).
  reflexivity.
Defined.

(** C6: a [run] that raises [StopTask] without [skip_successors] and a
    [run] that returns nothing, in the same task on the same inputs, make
    the wrapper return the same [Action]: the payload [run] was called with
    and no limit.  Each leaves the heap as its [run] left it. *)
Theorem stop_without_skip_equals_empty_return
    self r_stop r_none data store signal context sc stc ac w m w1 w2 :
  r_stop (payload data w) store signal context (on_entry self data w)
    = (Exc (StopTask m false), w1) ->
  r_none (payload data w) store signal context (on_entry self data w)
    = (Val PyNone, w2) ->
  let stopped := _run (with_run self r_stop) data store signal context sc stc ac w in
  let returned := _run (with_run self r_none) data store signal context sc stc ac w in
  stopped.1 = Val {| Action_data := payload data w; Action_limit := None |}
  /\ stopped.1 = returned.1
  /\ heap stopped.2 = heap w1
  /\ heap returned.2 = heap w2.
Proof.
  intros Hstop Hnone. cbv zeta. rewrite !_run_after_run.
  assert (Hentry : forall r, on_entry (with_run self r) data w = on_entry self data w)
    by (intros r; destruct data; reflexivity).
  rewrite !Hentry. cbn [run with_run]. rewrite Hstop, Hnone.
  unfold after_run; simpl. repeat split.
Qed.

Lemma stop_without_skip_equals_empty_return_witness :
  let stopped := _run (with_run (task_t1 BaseTask_run) (run_compute_then_stop false))
                   (Some 1%positive) store0 signal0 context0 None None None world0 in
  let returned := _run (with_run (task_t1 BaseTask_run) (run_returning PyNone))
                    (Some 1%positive) store0 signal0 context0 None None None world0 in
  stopped.1 = Val {| Action_data := 1%positive; Action_limit := None |}
  /\ stopped.1 = returned.1
  /\ heap stopped.2
     = heap (run_compute_then_stop false 1%positive store0 signal0 context0 world0).2
  /\ heap returned.2 = heap world0.
Proof.
  apply (stop_without_skip_equals_empty_return
           (task_t1 BaseTask_run) (run_compute_then_stop false) (run_returning PyNone)
           (Some 1%positive) store0 signal0 context0 None None None world0 "enough"
           (run_compute_then_stop false 1%positive store0 signal0 context0 world0).2 world0);
    reflexivity.
Defined.

(** ** The payload of a first task *)

(** C7: called with no incoming payload, the wrapper makes a new
    [MultiTaskData] for this task's name, at a reference that was not in
    use, with no data and no history, changes no other payload, and calls
    [run] with that reference in the world that holds the new payload: what
    it returns is what the rest of the wrapper makes of that call. *)
Theorem absent_payload_is_created_before_run
    self store signal context sc stc ac w :
  let d := fresh (dom (heap w)) in
  let w0 := {| heap := <[d := MultiTaskData_init (_name self)]> (heap w);
               calls := calls w |} in
  heap w !! d = None
  /\ heap w0 !! d = Some {| scope := name self; datasets := ∅; task_history := [] |}
  /\ (forall d', d' ≠ d -> heap w0 !! d' = heap w !! d')
  /\ _run self None store signal context sc stc ac w
     = after_run self d signal sc stc ac (run self d store signal context w0).
Proof.
  cbv zeta. repeat split.
  - apply not_elem_of_dom, is_fresh.
  - simpl. apply lookup_insert_eq.
  - intros d' Hne. simpl. by apply lookup_insert_ne.
  - apply _run_after_run.
Qed.

(** ** The history, candidate by candidate *)

(** C10: let [run] come back with [out].  When the candidate result is
    absent ([run] returned [None], raised [StopTask] without
    [skip_successors], or raised [AbortWorkflow]) the wrapper returns the
    default [Action] and the heap is the one [run] left, so the history of
    its payload is unchanged and the task's name is not appended.  When
    [run] returned an [Action], or raised [StopTask] with
    [skip_successors], the name is appended to the history of the returned
    payload.  In every case where the candidate is no [Action] the heap is
    the one [run] left. *)
Theorem history_appended_only_for_present_candidate
    self data store signal context sc stc ac w out w1 :
  run self (payload data w) store signal context (on_entry self data w) = (out, w1) ->
  let d := payload data w in
  let r := _run self data store signal context sc stc ac w in
  (out = Val PyNone \/ (exists m, out = Exc (StopTask m false))
     \/ (exists m, out = Exc (AbortWorkflow m)) ->
   r.1 = Val {| Action_data := d; Action_limit := None |}
   /\ heap r.2 = heap w1
   /\ history r.2 d = history w1 d)
  /\ (forall a, out = Val (PyAction a) ->
      r.1 = Val a
      /\ heap r.2 = alter (appended (name self)) (Action_data a) (heap w1)
      /\ history r.2 (Action_data a)
         = (fun l => l ++ [name self]) <$> history w1 (Action_data a))
  /\ (forall m, out = Exc (StopTask m true) ->
      r.1 = Val {| Action_data := d; Action_limit := Some [] |}
      /\ heap r.2 = alter (appended (name self)) d (heap w1)
      /\ history r.2 d = (fun l => l ++ [name self]) <$> history w1 d)
  /\ ((forall a, candidate d out ≠ Val (PyAction a)) -> heap r.2 = heap w1).
Proof.
  intros Hrun. cbv zeta. rewrite _run_after_run, Hrun. unfold after_run; simpl.
  split; [|split; [|split]].
  - intros [-> | [[m ->] | [m ->]]]; repeat split.
  - intros a ->. simpl. repeat split. apply history_alter.
  - intros m ->. simpl. repeat split. apply history_alter.
  - intros Hno. destruct (candidate (payload data w) out) as [[|a| | |]|e];
      try reflexivity. by destruct (Hno a).
Qed.

Lemma history_appended_only_for_present_candidate_witness :
  let d := 1%positive in
  let out : Res PyObject := Val PyNone in
  let r := _run (task_t1 BaseTask_run) (Some 1%positive) store0 signal0 context0
             (Some "on_success") None None world0 in
  (out = Val PyNone \/ (exists m, out = Exc (StopTask m false))
     \/ (exists m, out = Exc (AbortWorkflow m)) ->
   r.1 = Val {| Action_data := d; Action_limit := None |}
   /\ heap r.2 = heap world0
   /\ history r.2 d = history world0 d)
  /\ (forall a, out = Val (PyAction a) ->
      r.1 = Val a
      /\ heap r.2 = alter (appended "t1") (Action_data a) (heap world0)
      /\ history r.2 (Action_data a)
         = (fun l => l ++ ["t1"]) <$> history world0 (Action_data a))
  /\ (forall m, out = Exc (StopTask m true) ->
      r.1 = Val {| Action_data := d; Action_limit := Some [] |}
      /\ heap r.2 = alter (appended "t1") d (heap world0)
      /\ history r.2 d = (fun l => l ++ ["t1"]) <$> history world0 d)
  /\ ((forall a, candidate d out ≠ Val (PyAction a)) -> heap r.2 = heap world0).
Proof.
  apply (history_appended_only_for_present_candidate
           (task_t1 BaseTask_run) (Some 1%positive) store0 signal0 context0
           (Some "on_success") None None world0 (Val PyNone) world0).
  reflexivity.
Defined.

(** ** The job handle seen through the descriptor *)

(** C8: with no handle attached, [celery_pending], [celery_completed] and
    [celery_failed] return [False] and [celery_state] returns
    ["NOT_QUEUED"]; each returns a value, none raises, and the backend is
    not touched.  With a handle attached each query returns what the handle
    reports: the state compared with ["PENDING"], [ready()], [failed()] and
    the state itself. *)
Theorem status_queries_default_and_read_through (self : BaseTask) (b : Backend) :
  (celery_result self = None ->
   celery_pending self b = (Val false, b)
   /\ celery_completed self b = (Val false, b)
   /\ celery_failed self b = (Val false, b)
   /\ celery_state self b = (Val "NOT_QUEUED", b))
  /\ (forall r, celery_result self = Some r ->
      celery_pending self b = (Val (String.eqb (state_of r b) "PENDING"), b)
      /\ celery_completed self b = (Val (ready r b), b)
      /\ celery_failed self b = (Val (failed r b), b)
      /\ celery_state self b = (Val (state_of r b), b)).
Proof.
  unfold celery_pending, celery_completed, celery_failed, celery_state,
    has_celery_result.
  split.
  - intros ->. repeat split.
  - intros r ->. repeat split.
Qed.

Lemma status_queries_default_and_read_through_witness :
  (celery_pending (task_t1 BaseTask_run) backend0 = (Val false, backend0)
   /\ celery_completed (task_t1 BaseTask_run) backend0 = (Val false, backend0)
   /\ celery_failed (task_t1 BaseTask_run) backend0 = (Val false, backend0)
   /\ celery_state (task_t1 BaseTask_run) backend0 = (Val "NOT_QUEUED", backend0))
  /\ (let queued := set_celery_result (task_t1 BaseTask_run) (Some (handle_of "job-1")) in
      celery_pending queued backend0 = (Val false, backend0)
      /\ celery_completed queued backend0 = (Val true, backend0)
      /\ celery_failed queued backend0 = (Val true, backend0)
      /\ celery_state queued backend0 = (Val "FAILURE", backend0)).
Proof.
  split.
  - apply (proj1 (status_queries_default_and_read_through (task_t1 BaseTask_run) backend0)).
    reflexivity.
  - apply (proj2 (status_queries_default_and_read_through
                    (set_celery_result (task_t1 BaseTask_run) (Some (handle_of "job-1")))
                    backend0) (handle_of "job-1")).
    reflexivity.
Defined.

(** C9: [clear_celery_result] returns normally whether or not a handle is
    attached, and so does calling it twice in a row.  With no handle it
    leaves the backend as it was; with a handle each call is one [forget()]
    on that handle, which stays attached. *)
Theorem clear_celery_result_never_raises (self : BaseTask) (b : Backend) :
  (clear_celery_result self b).1 = Val tt
  /\ ((clear_celery_result self ;; clear_celery_result self) b).1 = Val tt
  /\ (celery_result self = None ->
      clear_celery_result self b = (Val tt, b)
      /\ (clear_celery_result self ;; clear_celery_result self) b = (Val tt, b))
  /\ (forall r, celery_result self = Some r ->
      clear_celery_result self b = (Val tt, forget r b)
      /\ (clear_celery_result self ;; clear_celery_result self) b
         = (Val tt, forget r (forget r b))).
Proof.
  unfold clear_celery_result, has_celery_result, celery_result, mbind, M_bind.
  destruct (_celery_result self) as [r|]; simpl.
  - split; [reflexivity|]. split; [reflexivity|]. split.
    + intros Hnone. discriminate Hnone.
    + intros r' Hr'. injection Hr' as <-. split; reflexivity.
  - split; [reflexivity|]. split; [reflexivity|]. split.
    + intros _. split; reflexivity.
    + intros r' Hr'. discriminate Hr'.
Qed.

Lemma clear_celery_result_never_raises_witness :
  let queued := set_celery_result (task_t1 BaseTask_run) (Some (handle_of "job-1")) in
  (clear_celery_result queued backend0).1 = Val tt
  /\ ((clear_celery_result queued ;; clear_celery_result queued) backend0).1 = Val tt
  /\ (celery_result queued = None ->
      clear_celery_result queued backend0 = (Val tt, backend0)
      /\ (clear_celery_result queued ;; clear_celery_result queued) backend0
         = (Val tt, backend0))
  /\ (forall r, celery_result queued = Some r ->
      clear_celery_result queued backend0 = (Val tt, forget r backend0)
      /\ (clear_celery_result queued ;; clear_celery_result queued) backend0
         = (Val tt, forget r (forget r backend0))).
Proof.
  exact (clear_celery_result_never_raises
           (set_celery_result (task_t1 BaseTask_run) (Some (handle_of "job-1"))) backend0).
Defined.

(** ** Further properties of the wrapper and the descriptor *)

(** When [run] returns an [Action] around a live payload, the wrapper
    returns that [Action] unchanged and the payload's history is the one
    [run] left followed by this task's name, once; the history of every
    other payload is as [run] left it. *)
Theorem returned_action_history_grows_by_name
    self data store signal context sc stc ac w a l w1 :
  run self (payload data w) store signal context (on_entry self data w)
    = (Val (PyAction a), w1) ->
  history w1 (Action_data a) = Some l ->
  let r := _run self data store signal context sc stc ac w in
  r.1 = Val a
  /\ history r.2 (Action_data a) = Some (l ++ [name self])
  /\ (forall d, d ≠ Action_data a -> history r.2 d = history w1 d).
Proof.
  intros Hrun Hl. cbv zeta. rewrite _run_after_run, Hrun. unfold after_run; simpl.
  split; [reflexivity|]. split.
  - by rewrite history_alter, Hl.
  - intros d Hne. by apply history_alter_ne.
Qed.

Lemma returned_action_history_grows_by_name_witness :
  let r := _run (task_t1 (run_pass_on None)) (Some 1%positive) store0 signal0 context0
             None None None world0 in
  r.1 = Val {| Action_data := 1%positive; Action_limit := None |}
  /\ history r.2 1%positive = Some (["t0"] ++ ["t1"])
  /\ (forall d, d ≠ 1%positive -> history r.2 d = history world0 d).
Proof.
  apply (returned_action_history_grows_by_name
           (task_t1 (run_pass_on None)) (Some 1%positive) store0 signal0 context0
           None None None world0 {| Action_data := 1%positive; Action_limit := None |}
           ["t0"] world0);
    reflexivity.
Defined.

(** An exception of [run] that is neither [StopTask] nor [AbortWorkflow]
    leaves the wrapper as it is: no callback is called, the workflow is not
    stopped, no payload is changed. *)
Theorem other_exception_propagates
    self data store signal context sc stc ac w e w1 :
  run self (payload data w) store signal context (on_entry self data w) = (Exc e, w1) ->
  (forall m s, e ≠ StopTask m s) ->
  (forall m, e ≠ AbortWorkflow m) ->
  _run self data store signal context sc stc ac w = (Exc e, w1).
Proof.
  intros Hrun Hstop Habort. rewrite _run_after_run, Hrun. unfold after_run; simpl.
  destruct w1 as [h cs].
  destruct e as [|m s|m| |n]; simpl; rewrite ?app_nil_r; try reflexivity.
  - by destruct (Hstop m s).
  - by destruct (Habort m).
Qed.

Lemma other_exception_propagates_witness :
  _run (task_t1 (run_raising (OtherException "KeyError"))) (Some 1%positive)
    store0 signal0 context0 (Some "on_success") (Some "on_stop") (Some "on_abort") world0
  = (Exc (OtherException "KeyError"), world0).
Proof.
  apply (other_exception_propagates
           (task_t1 (run_raising (OtherException "KeyError"))) (Some 1%positive)
           store0 signal0 context0 (Some "on_success") (Some "on_stop") (Some "on_abort")
           world0 (OtherException "KeyError") world0);
    [reflexivity | discriminate | discriminate].
Defined.

(** The first task of a branch, with the inherited [run]: the wrapper makes
    the payload at reference 1, scoped to [t1], and returns the default
    [Action] around it; the history of the new payload stays empty. *)
Example first_task_with_inherited_run :
  _run (task_t1 BaseTask_run) None store0 signal0 context0 (Some "on_success") None None
    no_payload
  = (Val {| Action_data := 1%positive; Action_limit := None |},
     {| heap := {[ 1%positive := MultiTaskData_init "t1" ]};
        calls := [call_callback "on_success" None] |}).
Proof. reflexivity. Qed.

(** When the handle's [forget()] is idempotent on the backend, so is
    [clear_celery_result]: the second call changes nothing more. *)
Theorem clear_celery_result_idempotent (self : BaseTask) (b : Backend) :
  (forall r b', celery_result self = Some r -> forget r (forget r b') = forget r b') ->
  (clear_celery_result self ;; clear_celery_result self) b = clear_celery_result self b.
Proof.
  unfold clear_celery_result, has_celery_result, celery_result, mbind, M_bind.
  intros Hidem. destruct (_celery_result self) as [r|]; simpl; [|reflexivity].
  by rewrite Hidem.
Qed.

Lemma clear_celery_result_idempotent_witness :
  let queued := set_celery_result (task_t1 BaseTask_run) (Some (handle_of "job-1")) in
  (clear_celery_result queued ;; clear_celery_result queued) backend0
  = clear_celery_result queued backend0.
Proof.
  apply (clear_celery_result_idempotent
           (set_celery_result (task_t1 BaseTask_run) (Some (handle_of "job-1"))) backend0).
  intros r b' Hr. injection Hr as <-. simpl. apply delete_delete_eq.
Defined.

(** A task as [__init__] leaves it is in state [Init], not skipped, with no
    celery result, and none of the five state predicates holds of it.  The
    state setter stores whatever it is given and touches nothing else: name,
    queue, the two policy flags, the skip flag, the celery result, the
    workflow and DAG names and [run] are as before.  Of the five predicates
    at most one holds of any task. *)
Theorem state_predicates_exclusive (self : BaseTask) (st : Z) (n q : string) (f p : bool) :
  state (__init__ n q f p) = TaskState.Init
  /\ is_skipped (__init__ n q f p) = false
  /\ has_celery_result (__init__ n q f p) = false
  /\ state (set_state self st) = st
  /\ name (set_state self st) = name self
  /\ is_skipped (set_state self st) = is_skipped self
  /\ celery_result (set_state self st) = celery_result self
  /\ queue (set_state self st) = queue self
  /\ has_to_run (set_state self st) = has_to_run self
  /\ propagate_skip (set_state self st) = propagate_skip self
  /\ workflow_name (set_state self st) = workflow_name self
  /\ dag_name (set_state self st) = dag_name self
  /\ run (set_state self st) = run self
  /\ length (List.filter id [is_waiting self; is_running self; is_completed self;
                             is_stopped self; is_aborted self]) <= 1
  /\ List.filter id [is_waiting (__init__ n q f p); is_running (__init__ n q f p);
                     is_completed (__init__ n q f p); is_stopped (__init__ n q f p);
                     is_aborted (__init__ n q f p)] = [].
Proof.
  repeat split; try reflexivity.
  unfold is_waiting, is_running, is_completed, is_stopped, is_aborted.
  unfold TaskState.Waiting, TaskState.Running, TaskState.Completed,
    TaskState.Stopped, TaskState.Aborted.
  generalize (_state self); intros z.
  repeat match goal with
         | |- context [(z =? ?k)%Z] => destruct (Z.eqb_spec z k)
         end; simpl; lia.
Qed.

(** ** What leaves the wrapper, and what it leaves alone *)

Lemma calls_after_run self d signal sc stc ac out w1 :
  calls_after (length (calls w1)) (after_run self d signal sc stc ac (out, w1)).2
  = wrapper_calls signal sc stc ac out.
Proof.
  unfold after_run; simpl.
  destruct (candidate d out) as [[|a|n|s|p]|e]; simpl; apply calls_after_app.
Qed.

Lemma heap_after_run self d signal sc stc ac out w1 :
  heap (after_run self d signal sc stc ac (out, w1)).2 = heap w1
  \/ exists d', heap (after_run self d signal sc stc ac (out, w1)).2
                = alter (appended (name self)) d' (heap w1).
Proof.
  unfold after_run; simpl.
  destruct (candidate d out) as [[|a|n|s|p]|e]; simpl; eauto.
Qed.


(** The wrapper keeps every payload: once [run] has come back it neither
    creates nor drops one, it leaves the scope and the working data of each
    as [run] left them, and a history is either as [run] left it or that
    history followed by this task's name.  Before [run], the payloads
    already there are not touched either. *)
Theorem wrapper_keeps_payloads
    self data store signal context sc stc ac w out w1 :
  run self (payload data w) store signal context (on_entry self data w) = (out, w1) ->
  let r := _run self data store signal context sc stc ac w in
  dom (heap r.2) = dom (heap w1)
  /\ (forall d md, heap w1 !! d = Some md ->
      exists md', heap r.2 !! d = Some md'
        /\ scope md' = scope md
        /\ datasets md' = datasets md
        /\ (task_history md' = task_history md
            \/ task_history md' = task_history md ++ [name self]))
  /\ (forall d md, heap w !! d = Some md -> heap (on_entry self data w) !! d = Some md).
Proof.
  intros Hrun. cbv zeta. rewrite _run_after_run, Hrun.
  split; [|split].
  - destruct (heap_after_run self (payload data w) signal sc stc ac out w1)
      as [-> | [d' ->]]; [reflexivity|]. apply dom_alter_L.
  - intros d md Hd.
    destruct (heap_after_run self (payload data w) signal sc stc ac out w1)
      as [-> | [d' ->]].
    + exists md. auto.
    + rewrite lookup_alter. case_decide as Heq.
      * subst d'. rewrite Hd. simpl. exists (appended (name self) md). auto.
      * exists md. auto.
  - intros d md Hd. destruct data as [d0|]; simpl; [exact Hd|].
    rewrite lookup_insert_ne; [exact Hd|].
    intros <-. pose proof (is_fresh (dom (heap w))) as Hfresh.
    apply Hfresh, elem_of_dom. eauto.
Qed.

Lemma wrapper_keeps_payloads_witness :
  let r := _run (task_t1 (run_compute_then_stop true)) (Some 1%positive) store0 signal0
             context0 None None None world0 in
  let w1 := (run_compute_then_stop true 1%positive store0 signal0 context0 world0).2 in
  dom (heap r.2) = dom (heap w1)
  /\ (forall d md, heap w1 !! d = Some md ->
      exists md', heap r.2 !! d = Some md'
        /\ scope md' = scope md
        /\ datasets md' = datasets md
        /\ (task_history md' = task_history md
            \/ task_history md' = task_history md ++ [name (task_t1 (run_compute_then_stop true))]))
  /\ (forall d md, heap world0 !! d = Some md ->
      heap (on_entry (task_t1 (run_compute_then_stop true)) (Some 1%positive) world0) !! d
      = Some md).
Proof.
  apply (wrapper_keeps_payloads
           (task_t1 (run_compute_then_stop true)) (Some 1%positive) store0 signal0 context0
           None None None world0 (Exc (StopTask "enough" true))).
  reflexivity.
Defined.

(** ** Which collaborator is called, and when *)

(* The solver below clears hypotheses that are sometimes already gone. *)
Set Warnings "-clear-no-such-hyp".

(** The calls the wrapper makes once [run] has come back with [out]: a
    callback is called without argument exactly when it is the success
    callback and [run] returned; a callback is called with [exc=e] exactly
    when [run] raised [e] and it is the stop callback for a [StopTask], or
    the abort callback for an [AbortWorkflow]; [stop_workflow()] is called,
    on the signal the wrapper was given, exactly when [run] raised
    [AbortWorkflow].  At most one callback is called, and the workflow is
    stopped at most once. *)
Theorem collaborators_called_by_outcome
    self data store signal context sc stc ac w out w1 :
  run self (payload data w) store signal context (on_entry self data w) = (out, w1) ->
  let made := calls_after (length (calls w1))
                (_run self data store signal context sc stc ac w).2 in
  (forall f, call_callback f None ∈ made <-> sc = Some f /\ exists v, out = Val v)
  /\ (forall f e, call_callback f (Some e) ∈ made <->
        out = Exc e
        /\ ((exists m s, e = StopTask m s) /\ stc = Some f
            \/ (exists m, e = AbortWorkflow m) /\ ac = Some f))
  /\ (forall sg, call_stop_workflow sg ∈ made <->
        sg = signal /\ exists m, out = Exc (AbortWorkflow m))
  /\ callback_count made <= 1
  /\ stop_workflow_count made <= 1.
Proof.
  intros Hrun. cbv zeta. rewrite _run_after_run, Hrun, calls_after_run.
  unfold callback_count, stop_workflow_count.
  destruct out as [v|[|m s|m| |n]]; destruct sc, stc, ac; simpl;
    (split; [|split; [|split; [|split]]]); try lia;
    intros; rewrite ?elem_of_cons, ?elem_of_nil; naive_solver.
Qed.

Lemma collaborators_called_by_outcome_witness :
  let made := calls_after (length (calls world0))
                (_run (task_t1 (run_raising (AbortWorkflow "fatal"))) (Some 1%positive)
                   store0 signal0 context0 (Some "on_success") (Some "on_stop")
                   (Some "on_abort") world0).2 in
  let out : Res PyObject := Exc (AbortWorkflow "fatal") in
  (forall f, call_callback f None ∈ made <-> Some "on_success" = Some f /\ exists v, out = Val v)
  /\ (forall f e, call_callback f (Some e) ∈ made <->
        out = Exc e
        /\ ((exists m s, e = StopTask m s) /\ Some "on_stop" = Some f
            \/ (exists m, e = AbortWorkflow m) /\ Some "on_abort" = Some f))
  /\ (forall sg, call_stop_workflow sg ∈ made <->
        sg = signal0 /\ exists m, out = Exc (AbortWorkflow m))
  /\ callback_count made <= 1
  /\ stop_workflow_count made <= 1.
Proof.
  apply (collaborators_called_by_outcome
           (task_t1 (run_raising (AbortWorkflow "fatal"))) (Some 1%positive)
           store0 signal0 context0 (Some "on_success") (Some "on_stop") (Some "on_abort")
           world0 (Exc (AbortWorkflow "fatal")) world0).
  reflexivity.
Defined.

(** ** A task that keeps the inherited [run] *)

(** A task that keeps the inherited [run] hands its payload on untouched:
    on any input the wrapper returns the default [Action] around the
    payload [run] was called with, calls the success callback if one was
    supplied and nothing else, and leaves every payload that was there,
    history included, as it was. *)
Theorem inherited_run_passes_payload_through
    self data store signal context sc stc ac w :
  run self = BaseTask_run ->
  let r := _run self data store signal context sc stc ac w in
  r = (Val {| Action_data := payload data w; Action_limit := None |},
       {| heap := heap (on_entry self data w);
          calls := calls w ++ callback_calls sc None |})
  /\ (forall d md, heap w !! d = Some md -> heap r.2 !! d = Some md).
Proof.
  intros Hrun. cbv zeta. rewrite _run_after_run, Hrun.
  unfold BaseTask_run, after_run; simpl.
  assert (Hcalls : calls (on_entry self data w) = calls w) by (by destruct data).
  rewrite Hcalls. split; [reflexivity|]. simpl.
  intros d md Hd. destruct data as [d0|]; simpl; [exact Hd|].
  rewrite lookup_insert_ne; [exact Hd|].
  intros <-. pose proof (is_fresh (dom (heap w))) as Hfresh.
  apply Hfresh, elem_of_dom. eauto.
Qed.

Lemma inherited_run_passes_payload_through_witness :
  let r := _run (task_t1 BaseTask_run) None store0 signal0 context0 (Some "on_success")
             (Some "on_stop") None world0 in
  r = (Val {| Action_data := payload None world0; Action_limit := None |},
       {| heap := heap (on_entry (task_t1 BaseTask_run) None world0);
          calls := calls world0 ++ callback_calls (Some "on_success") None |})
  /\ (forall d md, heap world0 !! d = Some md -> heap r.2 !! d = Some md).
Proof.
  apply (inherited_run_passes_payload_through
           (task_t1 BaseTask_run) None store0 signal0 context0 (Some "on_success")
           (Some "on_stop") None world0).
  reflexivity.
Defined.

(** ** One task after another *)

(** Two wrapper invocations in a row, the second on the payload of the
    [Action] the first returned: when both [run] methods return an
    [Action], the second around the payload it was given and with its
    history as it found it, the history ends with the two task names in the
    order the tasks ran. *)
Theorem history_records_tasks_in_order
    (first next : BaseTask) data store signal context sc stc ac w a1 a2 l w1 w2 :
  run first (payload data w) store signal context (on_entry first data w)
    = (Val (PyAction a1), w1) ->
  history w1 (Action_data a1) = Some l ->
  let r1 := _run first data store signal context sc stc ac w in
  run next (Action_data a1) store signal context r1.2 = (Val (PyAction a2), w2) ->
  Action_data a2 = Action_data a1 ->
  history w2 (Action_data a1) = history r1.2 (Action_data a1) ->
  let r2 := (a ← _run first data store signal context sc stc ac;
             _run next (Some (Action_data a)) store signal context sc stc ac) w in
  r2.1 = Val a2
  /\ history r2.2 (Action_data a2) = Some (l ++ [name first; name next]).
Proof.
  intros Hfirst Hl. cbv zeta.
  assert (Hr1 : exists w1', _run first data store signal context sc stc ac w = (Val a1, w1')
                            /\ history w1' (Action_data a1) = Some (l ++ [name first])).
  { rewrite _run_after_run, Hfirst. unfold after_run; simpl.
    eexists; split; [reflexivity|]. by rewrite history_alter, Hl. }
  destruct Hr1 as (w1' & Hr1 & Hl1). rewrite Hr1; simpl.
  intros Hnext Hsame Hkept.
  unfold mbind, M_bind. rewrite Hr1, _run_after_run; simpl. rewrite Hnext.
  unfold after_run; simpl. split; [reflexivity|].
  rewrite history_alter, Hsame, Hkept, Hl1; simpl.
  by rewrite <- app_assoc.
Qed.

Lemma history_records_tasks_in_order_witness :
  let r2 := (a ← _run (task_t1 (run_pass_on None)) None store0 signal0 context0 None None None;
             _run (task_t2 (run_pass_on (Some ["t3"]))) (Some (Action_data a))
               store0 signal0 context0 None None None) no_payload in
  r2.1 = Val {| Action_data := 1%positive; Action_limit := Some ["t3"] |}
  /\ history r2.2 1%positive = Some ([] ++ ["t1"; "t2"]).
Proof.
  apply (history_records_tasks_in_order
           (task_t1 (run_pass_on None)) (task_t2 (run_pass_on (Some ["t3"])))
           None store0 signal0 context0 None None None no_payload
           {| Action_data := 1%positive; Action_limit := None |}
           {| Action_data := 1%positive; Action_limit := Some ["t3"] |}
           []
           (on_entry (task_t1 (run_pass_on None)) None no_payload)
           (_run (task_t1 (run_pass_on None)) None store0 signal0 context0 None None None
              no_payload).2);
    reflexivity.
Defined.

(** ** The descriptor's attributes *)

(** Each setter changes the attribute it is for and no other: what is set
    is what is read back, the last write wins, writes to different
    attributes commute, and name, queue and the two policy flags, which
    have no setter, stay as [__init__] was given them. *)
Theorem setters_change_their_own_attribute
    (self : BaseTask) (st st' : Z) (v v' : bool) (res res' : option AsyncResult) :
  let changed := set_celery_result (set_is_skipped (set_state self st) v) res in
  (state changed = st /\ is_skipped changed = v /\ celery_result changed = res)
  /\ (name changed = name self /\ queue changed = queue self
      /\ has_to_run changed = has_to_run self
      /\ propagate_skip changed = propagate_skip self
      /\ run changed = run self)
  /\ (set_state (set_state self st) st' = set_state self st'
      /\ set_is_skipped (set_is_skipped self v) v' = set_is_skipped self v'
      /\ set_celery_result (set_celery_result self res) res' = set_celery_result self res')
  /\ (set_state (set_is_skipped self v) st = set_is_skipped (set_state self st) v
      /\ set_state (set_celery_result self res) st = set_celery_result (set_state self st) res
      /\ set_is_skipped (set_celery_result self res) v
         = set_celery_result (set_is_skipped self v) res)
  /\ (forall n q f p,
      name (__init__ n q f p) = n /\ queue (__init__ n q f p) = q
      /\ has_to_run (__init__ n q f p) = f /\ propagate_skip (__init__ n q f p) = p).
Proof. cbv zeta. repeat split. Qed.

(** ** Status after a discard *)



(** ** Where a returned action comes from *)

(** What the scheduler can read off the [Action] the wrapper returns: it
    is the [Action] [run] returned, unchanged; or it wraps the payload [run]
    was called with and has no limit, and then [run] returned [None], or
    raised [StopTask] without [skip_successors], or raised [AbortWorkflow];
    or it wraps that payload with the empty limit, and then [run] raised
    [StopTask] with [skip_successors]. *)
Theorem returned_action_provenance
    self data store signal context sc stc ac w a :
  (_run self data store signal context sc stc ac w).1 = Val a ->
  let out := (run self (payload data w) store signal context (on_entry self data w)).1 in
  out = Val (PyAction a)
  \/ (a = {| Action_data := payload data w; Action_limit := None |}
      /\ (out = Val PyNone
          \/ (exists m, out = Exc (StopTask m false))
          \/ (exists m, out = Exc (AbortWorkflow m))))
  \/ (a = {| Action_data := payload data w; Action_limit := Some [] |}
      /\ exists m, out = Exc (StopTask m true)).
Proof.
  cbv zeta. rewrite _run_after_run.
  destruct (run self (payload data w) store signal context (on_entry self data w))
    as [[v|e] w1]; unfold after_run; simpl.
  - destruct v as [|a'|n|s|p]; simpl; intros Ha; try discriminate Ha;
      injection Ha as <-; [right; left; eauto | by left].
  - destruct e as [|m [|]|m| |n]; simpl; intros Ha; try discriminate Ha;
      injection Ha as <-.
    + right; right; eauto.
    + right; left; eauto.
    + right; left; eauto 6.
Qed.

Lemma returned_action_provenance_witness :
  let out := (run (task_t1 (run_compute_then_stop true)) 1%positive store0 signal0 context0
                world0).1 in
  let a := {| Action_data := 1%positive; Action_limit := Some [] |} in
  out = Val (PyAction a)
  \/ (a = {| Action_data := payload (Some 1%positive) world0; Action_limit := None |}
      /\ (out = Val PyNone
          \/ (exists m, out = Exc (StopTask m false))
          \/ (exists m, out = Exc (AbortWorkflow m))))
  \/ (a = {| Action_data := payload (Some 1%positive) world0; Action_limit := Some [] |}
      /\ exists m, out = Exc (StopTask m true)).
Proof.
  apply (returned_action_provenance
           (task_t1 (run_compute_then_stop true)) (Some 1%positive) store0 signal0 context0
           None None None world0 {| Action_data := 1%positive; Action_limit := Some [] |}).
  reflexivity.
Defined.
